(** * django_restapi: the generic [Resource] dispatcher and the serializing
      responders

    A shallow embedding of [django_restapi/resource.py] and
    [django_restapi/responder.py].  The host framework (request parsing, the
    serializer registry, the authentication objects, the CRUD handlers that
    subclasses supply) is not part of the two files; it enters the model
    through the [Host] class and through the records [Authentication] and
    [ResourceClass], and every call into it is recorded in a trace. *)

From Stdlib Require Import String Ascii List ZArith Bool Lia.
From Stdlib Require Import DecimalString.
From Stdlib Require DecimalPos DecimalZ.
Import ListNotations.
Local Open Scope string_scope.
Local Open Scope list_scope.

(* ===================================================================== *)
(** * Python values and control flow *)
(* ===================================================================== *)

(** The exceptions that occur in the two files: [Http404] is raised by the
    source itself, [TypeError] by Python when a call does not fit the
    signature of the callee, and [HostError] stands for whatever the host
    framework or user code raises. *)
Inductive exn : Type :=
| Http404
| TypeError
| HostError (name : string).

Inductive outcome (A : Type) : Type :=
| Return (a : A)
| Raise (e : exn).
Arguments Return {A} a.
Arguments Raise {A} e.

(** Values forwarded through [*args] and [**kwargs]. *)
Inductive value : Type :=
| VNone
| VInt (n : Z)
| VStr (s : string).

Definition args_t : Type := list value.
Definition kwargs_t : Type := list (string * value).

(** [str.upper] on byte strings: the letters a-z are mapped to A-Z. *)
Definition upper_ascii (c : ascii) : ascii :=
  let n := nat_of_ascii c in
  if andb (Nat.leb 97 n) (Nat.leb n 122) then ascii_of_nat (n - 32) else c.

Fixpoint upper (s : string) : string :=
  match s with
  | EmptyString => EmptyString
  | String c s' => String (upper_ascii c) (upper s')
  end.

(** [x in l] for a list of strings. *)
Definition in_list (x : string) (l : list string) : bool :=
  existsb (String.eqb x) l.

(** ['%s' % n] for an integer [n]. *)
Definition str_of_int (n : Z) : string :=
  NilZero.string_of_int (Z.to_int n).

(** [needle in hay] for strings. *)
Fixpoint contains (needle hay : string) : bool :=
  if prefix needle hay then true
  else match hay with
       | EmptyString => false
       | String _ hay' => contains needle hay'
       end.

(** A state-and-exception monad: a computation runs on a state and either
    returns or raises, leaving a state behind in both cases. *)
Definition M (S A : Type) : Type := S -> outcome A * S.

Definition ret {S A : Type} (a : A) : M S A := fun s => (Return a, s).

Definition raise {S A : Type} (e : exn) : M S A := fun s => (Raise e, s).

Definition bind {S A B : Type} (m : M S A) (k : A -> M S B) : M S B :=
  fun s =>
    match m s with
    | (Return a, s') => k a s'
    | (Raise e, s') => (Raise e, s')
    end.

Declare Scope py_scope.
Delimit Scope py_scope with py.
Notation "x <- m ;; k" := (bind m (fun x => k))
  (at level 61, m at next level, right associativity) : py_scope.
Notation "m ;; k" := (bind m (fun _ => k))
  (at level 61, right associativity) : py_scope.

(* ===================================================================== *)
(** * The host framework *)
(* ===================================================================== *)

(** Parsed form data: key/value pairs in order, keys may repeat. *)
Definition QueryDict : Type := list (string * string).

(** The attributes of the request object that [resource.py] reads or
    writes.  [PUT] does not exist on a request until it is assigned. *)
Record HttpRequest : Type := {
  method : string;
  raw_post_data : string;
  POST : QueryDict;
  FILES : QueryDict;
  PUT : option QueryDict
}.

Definition set_method (m : string) (r : HttpRequest) : HttpRequest :=
  {| method := m; raw_post_data := raw_post_data r; POST := POST r;
     FILES := FILES r; PUT := PUT r |}.

Definition set_PUT (q : QueryDict) (r : HttpRequest) : HttpRequest :=
  {| method := method r; raw_post_data := raw_post_data r; POST := POST r;
     FILES := FILES r; PUT := Some q |}.

(** Modelled from the spec: the framework's response object, of which the
    two files use the body, the mimetype and the status code ("wraps bytes
    in an HTTP response with a status code and mimetype"); a response to a
    disallowed method additionally lists the permitted methods. *)
Record HttpResponse : Type := {
  resp_content : string;
  resp_mimetype : option string;
  resp_status_code : Z;
  resp_allow : list string
}.

(** Modelled from the spec: [HttpResponse(content, mimetype)]; the status
    code is the framework default ("200-range via framework default"). *)
Definition new_HttpResponse (content : string) (mimetype : option string)
  : HttpResponse :=
  {| resp_content := content; resp_mimetype := mimetype;
     resp_status_code := 200; resp_allow := [] |}.

(** [response.write(s)] appends to the body. *)
Definition write (s : string) (r : HttpResponse) : HttpResponse :=
  {| resp_content := resp_content r ++ s; resp_mimetype := resp_mimetype r;
     resp_status_code := resp_status_code r; resp_allow := resp_allow r |}.

(** [response.status_code = n]. *)
Definition set_status_code (n : Z) (r : HttpResponse) : HttpResponse :=
  {| resp_content := resp_content r; resp_mimetype := resp_mimetype r;
     resp_status_code := n; resp_allow := resp_allow r |}.

(** Modelled from the spec: [HttpResponseNotAllowed(permitted_methods)]
    ("a disallowed method returns 405 listing permitted methods"). *)
Definition HttpResponseNotAllowed (permitted_methods : list string)
  : HttpResponse :=
  {| resp_content := ""; resp_mimetype := None;
     resp_status_code := 405; resp_allow := permitted_methods |}.

(** [django.newforms.util.ErrorDict]: field name to list of messages. *)
Definition ErrorDict : Type := list (string * list string).

(** What the two files take from the framework without defining it. *)
Class Host : Type := {
  (** everything a call into the framework may read or change besides the
      request object: database, sessions, settings *)
  Env : Type;
  (** model instances; a queryset is a list of them *)
  Model : Type;
  (** [request._load_post_and_files()] *)
  _load_post_and_files : HttpRequest -> Env -> outcome unit * HttpRequest * Env;
  (** [serializers.serialize(format, queryset)] *)
  serialize : string -> list Model -> Env -> outcome string * Env;
  (** [error_dict.as_text()] *)
  as_text : ErrorDict -> string
}.

(* ===================================================================== *)
(** * resource.py *)
(* ===================================================================== *)

Inductive crud : Type := Create | Read | Update | Delete.

(** The calls that leave [resource.py]. *)
Inductive event : Type :=
| CallIsAuthenticated (request : HttpRequest)
| CallChallenge
| CallLoadPostAndFiles (request : HttpRequest)
| CallHandler (c : crud) (request : HttpRequest) (args : args_t) (kwargs : kwargs_t).

Section ResourceWorld.
Context `{Host}.

(** The one request object that [__call__] and everything it calls share,
    the rest of the host state, and the calls made so far. *)
Record world : Type := {
  w_request : HttpRequest;
  w_env : Env;
  w_trace : list event
}.

(** A callee that is handed the request object. *)
Definition ext (A : Type) : Type :=
  HttpRequest -> Env -> outcome A * HttpRequest * Env.

(** A callee that is not. *)
Definition ext0 (A : Type) : Type := Env -> outcome A * Env.

Definition call {A : Type} (ev : HttpRequest -> event) (f : ext A) : M world A :=
  fun w =>
    let '(o, r, e) := f (w_request w) (w_env w) in
    (o, {| w_request := r; w_env := e;
           w_trace := w_trace w ++ [ev (w_request w)] |}).

Definition call0 {A : Type} (ev : event) (f : ext0 A) : M world A :=
  fun w =>
    let '(o, e) := f (w_env w) in
    (o, {| w_request := w_request w; w_env := e;
           w_trace := w_trace w ++ [ev] |}).

Definition get_request : M world HttpRequest :=
  fun w => (Return (w_request w), w).

Definition modify_request (f : HttpRequest -> HttpRequest) : M world unit :=
  fun w => (Return tt, {| w_request := f (w_request w); w_env := w_env w;
                          w_trace := w_trace w |}).

(** An authentication object: anything with [is_authenticated] and
    [challenge].  [truth] is the value Python gives the object in a
    condition ([__nonzero__], else [__len__], else true). *)
Record Authentication : Type := {
  truth : bool;
  is_authenticated : ext bool;
  challenge : ext0 HttpResponse
}.

(** A CRUD method as [__call__] invokes it: [self.m(request, *args, **kwargs)]. *)
Definition handler : Type := args_t -> kwargs_t -> ext HttpResponse.

(** The method table of [Resource] or of a subclass of it. *)
Record ResourceClass : Type := {
  cls_create : handler;
  cls_read : handler;
  cls_update : handler;
  cls_delete : handler
}.

Record ResourceObj : Type := {
  class_of : ResourceClass;
  authentication : option Authentication;
  permitted_methods : list string
}.

(** [if self.authentication:] *)
Definition truthy (a : option Authentication) : bool :=
  match a with
  | Some a => truth a
  | None => false
  end.

Definition load_put_and_files : M world unit :=
  (request <- get_request ;;
   if String.eqb (method request) "PUT" then
     modify_request (set_method "POST") ;;
     call CallLoadPostAndFiles _load_post_and_files ;;
     request' <- get_request ;;
     modify_request (set_PUT (POST request')) ;;
     modify_request (set_method "PUT")
   else ret tt)%py.
End ResourceWorld.

Module Resource.
Section Resource.
Context `{Host}.

(** [if permitted_methods:] is false for [None] and for an empty
    sequence. *)
Definition __init__ (cls : ResourceClass)
           (authentication : option Authentication)
           (permitted_methods : option (list string)) : ResourceObj :=
  {| class_of := cls;
     authentication := authentication;
     permitted_methods :=
       match permitted_methods with
       | Some (op :: ops) => map upper (op :: ops)
       | _ => ["GET"]
       end |}.

(** [def create(self, request): raise Http404], and the same for the other
    three.  The signature takes the request and nothing else: a call with
    further positional or keyword arguments fails in the call itself. *)
Definition stub : handler :=
  fun args kwargs request env =>
    match args, kwargs with
    | [], [] => (Raise Http404, request, env)
    | _, _ => (Raise TypeError, request, env)
    end.

Definition create : handler := stub.
Definition read : handler := stub.
Definition update : handler := stub.
Definition delete : handler := stub.

Definition base : ResourceClass :=
  {| cls_create := create; cls_read := read;
     cls_update := update; cls_delete := delete |}.

(** The part of [__call__] below the permission check. *)
Definition dispatch (self : ResourceObj) (args : args_t) (kwargs : kwargs_t)
  : M world HttpResponse :=
  (request <- get_request ;;
   let request_method := upper (method request) in
   if negb (in_list request_method (permitted_methods self)) then
     ret (HttpResponseNotAllowed (permitted_methods self))
   else if String.eqb request_method "GET" then
     call (fun r => CallHandler Read r args kwargs)
          (cls_read (class_of self) args kwargs)
   else if String.eqb request_method "POST" then
     call (fun r => CallHandler Create r args kwargs)
          (cls_create (class_of self) args kwargs)
   else if String.eqb request_method "PUT" then
     load_put_and_files ;;
     call (fun r => CallHandler Update r args kwargs)
          (cls_update (class_of self) args kwargs)
   else if String.eqb request_method "DELETE" then
     call (fun r => CallHandler Delete r args kwargs)
          (cls_delete (class_of self) args kwargs)
   else raise Http404)%py.

Definition __call__ (self : ResourceObj) (args : args_t) (kwargs : kwargs_t)
  : M world HttpResponse :=
  match authentication self with
  | Some a =>
      if truth a then
        (ok <- call CallIsAuthenticated (is_authenticated a) ;;
         if negb ok then call0 CallChallenge (challenge a)
         else dispatch self args kwargs)%py
      else dispatch self args kwargs
  | None => dispatch self args kwargs
  end.
End Resource.
End Resource.

(* ===================================================================== *)
(** * responder.py *)
(* ===================================================================== *)

Definition nl : string := String (ascii_of_nat 10) EmptyString.

(** The literal ['\n\nErrors:\n']. *)
Definition errors_heading : string := nl ++ nl ++ "Errors:" ++ nl.

(** [if error_dict:] a dict is true when it has an entry. *)
Definition nonempty {A : Type} (l : list A) : bool :=
  match l with
  | [] => false
  | _ :: _ => true
  end.

Section ResponderWorld.
Context `{Host}.

(** The host state and the calls made to [serializers.serialize]. *)
Record rworld : Type := {
  r_env : Env;
  r_calls : list (string * list Model)
}.

Definition call_serialize (format : string) (queryset : list Model)
  : M rworld string :=
  fun w =>
    let '(o, e) := serialize format queryset (r_env w) in
    (o, {| r_env := e; r_calls := r_calls w ++ [(format, queryset)] |}).

Record ResponderObj : Type := {
  format : string;
  mimetype : option string
}.
End ResponderWorld.

Module SerializeResponder.
Section SerializeResponder.
Context `{Host}.

Definition __init__ (format : string) (mimetype : option string) : ResponderObj :=
  {| format := format; mimetype := mimetype |}.

Definition render (self : ResponderObj) (queryset : list Model) : M rworld string :=
  call_serialize (format self) queryset.

Definition element (self : ResponderObj) (elem : Model) : M rworld HttpResponse :=
  (body <- render self [elem] ;;
   ret (new_HttpResponse body (mimetype self)))%py.

(** The default of [error_dict] is the empty [ErrorDict()]. *)
Definition error (self : ResponderObj) (status_code : Z) (error_dict : ErrorDict)
  : HttpResponse :=
  let response := new_HttpResponse "" (mimetype self) in
  let response := write ("Error " ++ str_of_int status_code) response in
  let response :=
    if nonempty error_dict then
      write (as_text error_dict) (write errors_heading response)
    else response in
  set_status_code status_code response.

Definition list (self : ResponderObj) (queryset : list Model) : M rworld HttpResponse :=
  (body <- render self queryset ;;
   ret (new_HttpResponse body (mimetype self)))%py.

End SerializeResponder.
End SerializeResponder.

Module JSONResponder.
Definition __init__ : ResponderObj :=
  SerializeResponder.__init__ "json" (Some "application/json").
End JSONResponder.

Module XMLResponder.
Definition __init__ : ResponderObj :=
  SerializeResponder.__init__ "xml" (Some "application/xml").
End XMLResponder.

(* ===================================================================== *)
(** * Observations on a run *)
(* ===================================================================== *)

Section Observations.
Context `{Host}.

(** The world in which [__call__] arrives at the allow-list check: the
    permission check was skipped, or [is_authenticated] returned true.
    [None] when the request is turned away or the check raises. *)
Definition after_authentication (self : ResourceObj) (w : world) : option world :=
  if truthy (authentication self) then
    match authentication self with
    | Some a =>
        match is_authenticated a (w_request w) (w_env w) with
        | (Return true, r, e) =>
            Some {| w_request := r; w_env := e;
                    w_trace := w_trace w ++ [CallIsAuthenticated (w_request w)] |}
        | _ => None
        end
    | None => None
    end
  else Some w.

(** What the call [self.m(request, *args, **kwargs)] of the method [h] does
    in the world [w]. *)
Definition invoked (c : crud) (h : handler) (args : args_t) (kwargs : kwargs_t)
           (w : world) : outcome HttpResponse * world :=
  let '(o, r, e) := h args kwargs (w_request w) (w_env w) in
  (o, {| w_request := r; w_env := e;
         w_trace := w_trace w ++ [CallHandler c (w_request w) args kwargs] |}).

(** The calls made between the worlds [w] and [w']. *)
Definition new_calls (w w' : world) : list event :=
  skipn (length (w_trace w)) (w_trace w').
End Observations.

Definition is_handler_call (ev : event) : bool :=
  match ev with
  | CallHandler _ _ _ _ => true
  | _ => false
  end.

Definition is_authentication_call (ev : event) : bool :=
  match ev with
  | CallIsAuthenticated _ | CallChallenge => true
  | _ => false
  end.

Fixpoint has_char (c : ascii) (s : string) : bool :=
  match s with
  | EmptyString => false
  | String c' s' => if Ascii.eqb c c' then true else has_char c s'
  end.

(* ===================================================================== *)
(** * A small host on which the model runs *)
(* ===================================================================== *)

Module Demo.

(** The environment counts the calls into the host.  The body parser reads
    the raw data of a POST request and nothing of any other request. *)
Definition host : Host :=
  {| Env := nat;
     Model := string;
     _load_post_and_files := fun r n =>
       (Return tt,
        {| method := method r; raw_post_data := raw_post_data r;
           POST := if String.eqb (method r) "POST"
                   then [("body", raw_post_data r)] else [];
           FILES := []; PUT := PUT r |},
        S n);
     serialize := fun fmt queryset n =>
       if in_list fmt ["xml"; "json"; "python"]
       then (Return (fmt ++ ":" ++ String.concat "," queryset)%string, S n)
       else (Raise (HostError "SerializerDoesNotExist"), S n);
     as_text := fun d => String.concat nl (map (fun kv => "* " ++ fst kv)%string d) |}.

#[local] Existing Instance host.

Definition request (m body : string) : HttpRequest :=
  {| method := m; raw_post_data := body; POST := []; FILES := []; PUT := None |}.

Definition world_at (r : HttpRequest) (calls : nat) (trace : list event) : @world host :=
  {| w_request := r; w_env := calls; w_trace := trace |}.

Definition start (m body : string) : @world host :=
  world_at (request m body) 0 [].

Definition unauthorized : HttpResponse :=
  {| resp_content := "Authorization Required"; resp_mimetype := None;
     resp_status_code := 401; resp_allow := [] |}.

Definition ok (body : string) : HttpResponse := new_HttpResponse body None.

(** Accepts the requests that carry the given body. *)
Definition password (secret : string) : @Authentication host :=
  {| truth := true;
     is_authenticated := fun r n => (Return (String.eqb (raw_post_data r) secret), r, S n);
     challenge := fun n => (Return unauthorized, S n) |}.

(** An authentication object that is also a container of accounts, and
    empty: Python takes it for false in a condition.  It accepts no
    request. *)
Definition no_accounts : @Authentication host :=
  {| truth := false;
     is_authenticated := fun r n => (Return false, r, S n);
     challenge := fun n => (Return unauthorized, S n) |}.

(** A subclass that overrides all four methods. *)
Definition echo (name : string) : @handler host :=
  fun _ _ r n => (Return (ok (name ++ " " ++ method r)%string), r, S n).

Definition notes : @ResourceClass host :=
  {| cls_create := echo "create"; cls_read := echo "read";
     cls_update := fun _ _ r n =>
       (Return (ok (match PUT r with
                    | Some q => String.concat "&" (map snd q)
                    | None => "no PUT"
                    end)), r, S n);
     cls_delete := echo "delete" |}.

Definition rworld_at (calls : nat) (served : list (string * list string)) : @rworld host :=
  {| r_env := calls; r_calls := served |}.

Definition rstart : @rworld host := rworld_at 0 [].

End Demo.

Definition is_parser_call (ev : event) : bool :=
  match ev with
  | CallLoadPostAndFiles _ => true
  | _ => false
  end.

Module DemoStrict.

(** The demo host with a body parser that rejects an empty body. *)
Definition host : Host :=
  {| Env := nat;
     Model := string;
     _load_post_and_files := fun r n =>
       if String.eqb (raw_post_data r) ""
       then (Raise (HostError "MultiPartParserError"), r, S n)
       else @_load_post_and_files Demo.host r n;
     serialize := @serialize Demo.host;
     as_text := @as_text Demo.host |}.

#[local] Existing Instance host.

Definition world_at (r : HttpRequest) (calls : nat) (trace : list event) : @world host :=
  {| w_request := r; w_env := calls; w_trace := trace |}.

Definition start (m body : string) : @world host :=
  world_at (Demo.request m body) 0 [].

Definition echo (name : string) : @handler host :=
  fun _ _ r n => (Return (Demo.ok (name ++ " " ++ method r)%string), r, S n).

Definition notes : @ResourceClass host :=
  {| cls_create := echo "create"; cls_read := echo "read";
     cls_update := echo "update"; cls_delete := echo "delete" |}.

End DemoStrict.

(* ===================================================================== *)
(** * Properties of resource.py *)
(* ===================================================================== *)

Section ResourceFacts.
Context `{Host}.

Lemma new_calls_app (w : world) (r : HttpRequest) (e : Env) (evs : list event) :
  new_calls w {| w_request := r; w_env := e; w_trace := w_trace w ++ evs |} = evs.
Proof.
  unfold new_calls; simpl.
  induction (w_trace w) as [|x t IH]; simpl; [reflexivity | exact IH].
Qed.

Lemma new_calls_refl (w : world) : new_calls w w = [].
Proof.
  unfold new_calls. induction (w_trace w) as [|x t IH]; simpl; auto.
Qed.

(** Once the permission check lets the request through, the rest of
    [__call__] is the allow-list check and the dispatch. *)
Lemma call_after_authentication
      (self : ResourceObj) (args : args_t) (kwargs : kwargs_t) (w w1 : world) :
  after_authentication self w = Some w1 ->
  Resource.__call__ self args kwargs w = Resource.dispatch self args kwargs w1.
Proof.
  unfold after_authentication, Resource.__call__, truthy.
  destruct (authentication self) as [a|].
  - destruct (truth a).
    + unfold bind, call.
      destruct (is_authenticated a (w_request w) (w_env w)) as [[o r] e].
      destruct o as [[|]|]; simpl; intros Hw; inversion Hw; reflexivity.
    + intros Hw; inversion Hw; reflexivity.
  - intros Hw; inversion Hw; reflexivity.
Qed.

(** The permission check makes at most the one call to [is_authenticated]. *)
Lemma after_authentication_calls (self : ResourceObj) (w w1 : world) :
  after_authentication self w = Some w1 ->
  new_calls w w1 = [] \/ new_calls w w1 = [CallIsAuthenticated (w_request w)].
Proof.
  unfold after_authentication, truthy.
  destruct (authentication self) as [a|].
  - destruct (truth a).
    + destruct (is_authenticated a (w_request w) (w_env w)) as [[o r] e].
      destruct o as [[|]|]; intros Hw; inversion Hw; subst.
      right. apply new_calls_app.
    + intros Hw; inversion Hw; subst. left. apply new_calls_refl.
  - intros Hw; inversion Hw; subst. left. apply new_calls_refl.
Qed.

Lemma dispatch_not_permitted
      (self : ResourceObj) (args : args_t) (kwargs : kwargs_t) (w : world) :
  in_list (upper (method (w_request w))) (permitted_methods self) = false ->
  Resource.dispatch self args kwargs w =
  (Return (HttpResponseNotAllowed (permitted_methods self)), w).
Proof.
  intros Hin. unfold Resource.dispatch, bind, get_request, ret.
  rewrite Hin. reflexivity.
Qed.

Lemma dispatch_permitted
      (self : ResourceObj) (args : args_t) (kwargs : kwargs_t) (w : world) :
  in_list (upper (method (w_request w))) (permitted_methods self) = true ->
  Resource.dispatch self args kwargs w =
  (let request_method := upper (method (w_request w)) in
   if String.eqb request_method "GET" then
     invoked Read (cls_read (class_of self)) args kwargs w
   else if String.eqb request_method "POST" then
     invoked Create (cls_create (class_of self)) args kwargs w
   else if String.eqb request_method "PUT" then
     match load_put_and_files w with
     | (Return _, w2) => invoked Update (cls_update (class_of self)) args kwargs w2
     | (Raise e, w2) => (Raise e, w2)
     end
   else if String.eqb request_method "DELETE" then
     invoked Delete (cls_delete (class_of self)) args kwargs w
   else (Raise Http404, w)).
Proof.
  intros Hin. unfold Resource.dispatch, bind, get_request.
  rewrite Hin. cbv zeta. cbn [negb]. cbv iota.
  unfold invoked, call.
  destruct (String.eqb (upper (method (w_request w))) "GET"); [reflexivity|].
  destruct (String.eqb (upper (method (w_request w))) "POST"); [reflexivity|].
  destruct (String.eqb (upper (method (w_request w))) "PUT").
  - destruct (load_put_and_files w) as [[u|e] w2]; reflexivity.
  - destruct (String.eqb (upper (method (w_request w))) "DELETE"); reflexivity.
Qed.

End ResourceFacts.

(** C1: a request that passes the permission check and whose upper-cased
    method is permitted is dispatched by the table GET to [read], POST to
    [create], PUT to [update] and DELETE to [delete]: the chosen method of
    the object's class is called with the request, [args] and [kwargs], and
    its outcome is the outcome of [__call__].  For PUT,
    [load_put_and_files] runs on the request first and [update] sees the
    request it leaves; if it raises, so does [__call__]. *)
Theorem call_dispatch_table `{Host}
        (self : ResourceObj) (args : args_t) (kwargs : kwargs_t) (w w1 : world) :
  after_authentication self w = Some w1 ->
  in_list (upper (method (w_request w1))) (permitted_methods self) = true ->
  (upper (method (w_request w1)) = "GET" ->
   Resource.__call__ self args kwargs w =
   invoked Read (cls_read (class_of self)) args kwargs w1) /\
  (upper (method (w_request w1)) = "POST" ->
   Resource.__call__ self args kwargs w =
   invoked Create (cls_create (class_of self)) args kwargs w1) /\
  (upper (method (w_request w1)) = "PUT" ->
   match load_put_and_files w1 with
   | (Return _, w2) =>
       Resource.__call__ self args kwargs w =
       invoked Update (cls_update (class_of self)) args kwargs w2
   | (Raise e, w2) => Resource.__call__ self args kwargs w = (Raise e, w2)
   end) /\
  (upper (method (w_request w1)) = "DELETE" ->
   Resource.__call__ self args kwargs w =
   invoked Delete (cls_delete (class_of self)) args kwargs w1).
Proof.
  intros Hauth Hin.
  rewrite (call_after_authentication self args kwargs w w1 Hauth).
  rewrite (dispatch_permitted self args kwargs w1 Hin). cbv zeta.
  repeat split; intros Hm; rewrite Hm; simpl.
  - reflexivity.
  - reflexivity.
  - destruct (load_put_and_files w1) as [[u|e] w2]; reflexivity.
  - reflexivity.
Qed.

(** C1, on a PUT request to a resource that requires the password. *)
Lemma call_dispatch_table_witness :
  let self := Resource.__init__ Demo.notes (Some (Demo.password "pw"))
                                (Some ["get"; "put"]) in
  let w := Demo.start "PUT" "pw" in
  let w1 := Demo.world_at (Demo.request "PUT" "pw") 1
                          [CallIsAuthenticated (Demo.request "PUT" "pw")] in
  after_authentication self w = Some w1 /\
  in_list (upper (method (w_request w1))) (permitted_methods self) = true /\
  upper (method (w_request w1)) = "PUT" /\
  fst (Resource.__call__ self [VInt 7] [] w) = Return (Demo.ok "pw").
Proof.
  intros self w w1.
  assert (Hauth : after_authentication self w = Some w1) by reflexivity.
  assert (Hin : in_list (upper (method (w_request w1))) (permitted_methods self) = true)
    by reflexivity.
  destruct (call_dispatch_table self [VInt 7] [] w w1 Hauth Hin) as [_ [_ [Hput _]]].
  specialize (Hput eq_refl). simpl in Hput.
  split; [exact Hauth | split; [exact Hin | split; [reflexivity |]]].
  rewrite Hput. reflexivity.
Defined.

(** C2: a request that passes the permission check and whose upper-cased
    method is not permitted gets [HttpResponseNotAllowed] built from the
    permitted methods, a 405 that lists them, and [__call__] calls no CRUD
    method. *)
Theorem call_method_not_allowed `{Host}
        (self : ResourceObj) (args : args_t) (kwargs : kwargs_t) (w w1 : world) :
  after_authentication self w = Some w1 ->
  in_list (upper (method (w_request w1))) (permitted_methods self) = false ->
  Resource.__call__ self args kwargs w =
  (Return (HttpResponseNotAllowed (permitted_methods self)), w1) /\
  resp_status_code (HttpResponseNotAllowed (permitted_methods self)) = 405%Z /\
  resp_allow (HttpResponseNotAllowed (permitted_methods self)) = permitted_methods self /\
  existsb is_handler_call (new_calls w w1) = false.
Proof.
  intros Hauth Hin.
  rewrite (call_after_authentication self args kwargs w w1 Hauth).
  rewrite (dispatch_not_permitted self args kwargs w1 Hin).
  repeat split.
  destruct (after_authentication_calls self w w1 Hauth) as [Hc|Hc];
    rewrite Hc; reflexivity.
Qed.

(** C2, on a DELETE request to a resource that permits GET and PUT. *)
Lemma call_method_not_allowed_witness :
  let self := Resource.__init__ Demo.notes (Some (Demo.password "pw"))
                                (Some ["get"; "put"]) in
  let w := Demo.start "delete" "pw" in
  let w1 := Demo.world_at (Demo.request "delete" "pw") 1
                          [CallIsAuthenticated (Demo.request "delete" "pw")] in
  after_authentication self w = Some w1 /\
  in_list (upper (method (w_request w1))) (permitted_methods self) = false /\
  Resource.__call__ self [] [("id", VInt 3)] w =
  (Return (HttpResponseNotAllowed ["GET"; "PUT"]), w1).
Proof.
  intros self w w1.
  assert (Hauth : after_authentication self w = Some w1) by reflexivity.
  assert (Hin : in_list (upper (method (w_request w1))) (permitted_methods self) = false)
    by reflexivity.
  split; [exact Hauth | split; [exact Hin |]].
  exact (proj1 (call_method_not_allowed self [] [("id", VInt 3)] w w1 Hauth Hin)).
Defined.

(** C10 as amended: a request that passes the permission check and whose
    upper-cased method is permitted but is none of GET, POST, PUT and
    DELETE makes [__call__] raise [Http404], with no call to a CRUD method
    and no 405. *)
Theorem call_permitted_unknown_method `{Host}
        (self : ResourceObj) (args : args_t) (kwargs : kwargs_t) (w w1 : world) :
  after_authentication self w = Some w1 ->
  in_list (upper (method (w_request w1))) (permitted_methods self) = true ->
  ~ In (upper (method (w_request w1))) ["GET"; "POST"; "PUT"; "DELETE"] ->
  Resource.__call__ self args kwargs w = (Raise Http404, w1).
Proof.
  intros Hauth Hin Hnot.
  rewrite (call_after_authentication self args kwargs w w1 Hauth).
  rewrite (dispatch_permitted self args kwargs w1 Hin). cbv zeta.
  destruct (String.eqb_spec (upper (method (w_request w1))) "GET") as [E|_];
    [exfalso; apply Hnot; rewrite E; simpl; tauto|].
  destruct (String.eqb_spec (upper (method (w_request w1))) "POST") as [E|_];
    [exfalso; apply Hnot; rewrite E; simpl; tauto|].
  destruct (String.eqb_spec (upper (method (w_request w1))) "PUT") as [E|_];
    [exfalso; apply Hnot; rewrite E; simpl; tauto|].
  destruct (String.eqb_spec (upper (method (w_request w1))) "DELETE") as [E|_];
    [exfalso; apply Hnot; rewrite E; simpl; tauto|].
  reflexivity.
Qed.

(** C10 as amended, on a permitted HEAD request with the right password. *)
Lemma call_permitted_unknown_method_witness :
  let self := Resource.__init__ Demo.notes (Some (Demo.password "pw"))
                                (Some ["get"; "head"]) in
  let w := Demo.start "HEAD" "pw" in
  let w1 := Demo.world_at (Demo.request "HEAD" "pw") 1
                          [CallIsAuthenticated (Demo.request "HEAD" "pw")] in
  after_authentication self w = Some w1 /\
  in_list (upper (method (w_request w1))) (permitted_methods self) = true /\
  Resource.__call__ self [] [] w = (Raise Http404, w1).
Proof.
  intros self w w1.
  assert (Hauth : after_authentication self w = Some w1) by reflexivity.
  assert (Hin : in_list (upper (method (w_request w1))) (permitted_methods self) = true)
    by reflexivity.
  split; [exact Hauth | split; [exact Hin |]].
  apply (call_permitted_unknown_method self [] [] w w1 Hauth Hin).
  simpl. intros [E|[E|[E|[E|[]]]]]; discriminate E.
Defined.

(** C10 as stated fails: a permitted HEAD request without the password is
    answered with the challenge, which is a returned response, and no
    [Http404] is raised. *)
Lemma unknown_method_is_challenged_first :
  let self := Resource.__init__ Demo.notes (Some (Demo.password "pw"))
                                (Some ["get"; "head"]) in
  let w := Demo.start "HEAD" "" in
  in_list (upper (method (w_request w))) (permitted_methods self) = true /\
  ~ In (upper (method (w_request w))) ["GET"; "POST"; "PUT"; "DELETE"] /\
  fst (Resource.__call__ self [] [] w) = Return Demo.unauthorized /\
  fst (Resource.__call__ self [] [] w) <> Raise Http404.
Proof.
  intros self w. split; [reflexivity | split; [| split]].
  - simpl. intros [E|[E|[E|[E|[]]]]]; discriminate E.
  - reflexivity.
  - discriminate.
Qed.

Section LoadPutFacts.
Context `{Host}.

Lemma load_put_and_files_other (w : world) :
  method (w_request w) <> "PUT" -> load_put_and_files w = (Return tt, w).
Proof.
  intros Hm. unfold load_put_and_files, bind, get_request.
  destruct (String.eqb_spec (method (w_request w)) "PUT") as [E|_];
    [contradiction | reflexivity].
Qed.

Lemma load_put_and_files_put (w : world) :
  method (w_request w) = "PUT" ->
  load_put_and_files w =
  match _load_post_and_files (set_method "POST" (w_request w)) (w_env w) with
  | (Return _, r1, e1) =>
      (Return tt,
       {| w_request := set_method "PUT" (set_PUT (POST r1) r1);
          w_env := e1;
          w_trace := w_trace w ++ [CallLoadPostAndFiles (set_method "POST" (w_request w))] |})
  | (Raise x, r1, e1) =>
      (Raise x,
       {| w_request := r1;
          w_env := e1;
          w_trace := w_trace w ++ [CallLoadPostAndFiles (set_method "POST" (w_request w))] |})
  end.
Proof.
  intros Hm. unfold load_put_and_files, bind, get_request, modify_request, call.
  rewrite Hm. simpl.
  destruct (_load_post_and_files (set_method "POST" (w_request w)) (w_env w))
    as [[[u|x] r1] e1]; reflexivity.
Qed.

(** What [load_put_and_files] adds to the trace. *)
Lemma load_put_and_files_trace (w : world) :
  exists evs,
    w_trace (snd (load_put_and_files w)) = w_trace w ++ evs /\
    forallb (fun ev => negb (orb (is_authentication_call ev) (is_handler_call ev))) evs = true.
Proof.
  destruct (String.eqb_spec (method (w_request w)) "PUT") as [E|E].
  - rewrite (load_put_and_files_put w E).
    destruct (_load_post_and_files (set_method "POST" (w_request w)) (w_env w))
      as [[[u|x] r1] e1]; simpl; eexists; split; reflexivity.
  - rewrite (load_put_and_files_other w E). exists []. simpl.
    rewrite app_nil_r. split; reflexivity.
Qed.

End LoadPutFacts.

(** C4: when [load_put_and_files] returns, [request.method] is what it was
    before.  On a request whose method is not 'PUT' it returns and changes
    nothing.  On a request whose method is 'PUT' the body parser
    [_load_post_and_files] is called once, on the request relabelled
    'POST'; if the parser returns, so does [load_put_and_files], and the
    request it leaves is the one the parser left with [PUT] set to its
    [POST] and the method set back to 'PUT'. *)
Theorem load_put_and_files_frame `{Host} (w : world) :
  (forall w', load_put_and_files w = (Return tt, w') ->
              method (w_request w') = method (w_request w)) /\
  (method (w_request w) <> "PUT" -> load_put_and_files w = (Return tt, w)) /\
  (method (w_request w) = "PUT" ->
   forall r1 e1,
     _load_post_and_files (set_method "POST" (w_request w)) (w_env w) = (Return tt, r1, e1) ->
     let w' := {| w_request := set_method "PUT" (set_PUT (POST r1) r1);
                  w_env := e1;
                  w_trace := w_trace w ++
                             [CallLoadPostAndFiles (set_method "POST" (w_request w))] |} in
     load_put_and_files w = (Return tt, w') /\
     PUT (w_request w') = Some (POST (w_request w')) /\
     POST (w_request w') = POST r1 /\
     method (w_request w') = "PUT").
Proof.
  split; [| split].
  - intros w' Hrun.
    destruct (String.eqb_spec (method (w_request w)) "PUT") as [E|E].
    + rewrite (load_put_and_files_put w E) in Hrun.
      destruct (_load_post_and_files (set_method "POST" (w_request w)) (w_env w))
        as [[[u|x] r1] e1]; inversion Hrun; subst; simpl.
      symmetry; exact E.
    + rewrite (load_put_and_files_other w E) in Hrun.
      inversion Hrun; reflexivity.
  - apply load_put_and_files_other.
  - intros E r1 e1 Hparse w'.
    rewrite (load_put_and_files_put w E), Hparse.
    repeat split.
Qed.

(** C4, on a PUT request: the parser of the demo host reads the body only
    because it sees the method 'POST'. *)
Lemma load_put_and_files_frame_witness :
  let w := Demo.start "PUT" "a=1" in
  let r1 := {| method := "POST"; raw_post_data := "a=1";
               POST := [("body", "a=1")]; FILES := []; PUT := None |} in
  method (w_request w) = "PUT" /\
  @_load_post_and_files Demo.host (set_method "POST" (w_request w)) (w_env w)
  = (Return tt, r1, 1%nat) /\
  load_put_and_files w =
  (Return tt,
   Demo.world_at {| method := "PUT"; raw_post_data := "a=1";
                    POST := [("body", "a=1")]; FILES := [];
                    PUT := Some [("body", "a=1")] |}
                 1 [CallLoadPostAndFiles (Demo.request "POST" "a=1")]).
Proof.
  intros w r1.
  assert (Hm : method (w_request w) = "PUT") by reflexivity.
  assert (Hp : @_load_post_and_files Demo.host (set_method "POST" (w_request w)) (w_env w)
               = (Return tt, r1, 1%nat)) by reflexivity.
  split; [exact Hm | split; [exact Hp |]].
  destruct (@load_put_and_files_frame Demo.host w) as [_ [_ Hput]].
  exact (proj1 (Hput Hm r1 1%nat Hp)).
Defined.

Section DispatchFacts.
Context `{Host}.

Lemma new_calls_of_trace (w w' : world) (evs : list event) :
  w_trace w' = w_trace w ++ evs -> new_calls w w' = evs.
Proof.
  intros Ht. unfold new_calls. rewrite Ht. clear Ht.
  induction (w_trace w) as [|x t IH]; simpl; [reflexivity | exact IH].
Qed.

Lemma invoked_trace (c : crud) (h : handler) (args : args_t) (kwargs : kwargs_t)
      (w : world) :
  w_trace (snd (invoked c h args kwargs w)) =
  w_trace w ++ [CallHandler c (w_request w) args kwargs].
Proof.
  unfold invoked.
  destruct (h args kwargs (w_request w) (w_env w)) as [[o r] e]; reflexivity.
Qed.

(** Below the permission check nothing calls into the authentication
    object. *)
Lemma dispatch_trace (self : ResourceObj) (args : args_t) (kwargs : kwargs_t)
      (w : world) :
  exists evs,
    w_trace (snd (Resource.dispatch self args kwargs w)) = w_trace w ++ evs /\
    forallb (fun ev => negb (is_authentication_call ev)) evs = true.
Proof.
  destruct (in_list (upper (method (w_request w))) (permitted_methods self)) eqn:Hin.
  - rewrite (dispatch_permitted self args kwargs w Hin). cbv zeta.
    destruct (String.eqb (upper (method (w_request w))) "GET");
      [rewrite invoked_trace; eexists; split; reflexivity|].
    destruct (String.eqb (upper (method (w_request w))) "POST");
      [rewrite invoked_trace; eexists; split; reflexivity|].
    destruct (String.eqb (upper (method (w_request w))) "PUT").
    + destruct (load_put_and_files_trace w) as [evs [Ht Hevs]].
      destruct (load_put_and_files w) as [[u|x] w2]; simpl in Ht.
      * rewrite invoked_trace, Ht, <- app_assoc.
        eexists; split; [reflexivity|].
        rewrite forallb_app. simpl. rewrite andb_true_r.
        rewrite forallb_forall in *. intros ev Hev.
        specialize (Hevs ev Hev).
        destruct (is_authentication_call ev); [discriminate Hevs | reflexivity].
      * simpl. exists evs. split; [exact Ht|].
        rewrite forallb_forall in *. intros ev Hev.
        specialize (Hevs ev Hev).
        destruct (is_authentication_call ev); [discriminate Hevs | reflexivity].
    + destruct (String.eqb (upper (method (w_request w))) "DELETE");
        [rewrite invoked_trace; eexists; split; reflexivity|].
      exists []. simpl. rewrite app_nil_r. split; reflexivity.
  - rewrite (dispatch_not_permitted self args kwargs w Hin).
    exists []. simpl. rewrite app_nil_r. split; reflexivity.
Qed.

Lemma existsb_of_forallb_negb (p : event -> bool) (evs : list event) :
  forallb (fun ev => negb (p ev)) evs = true -> existsb p evs = false.
Proof.
  induction evs as [|ev evs IH]; simpl; [reflexivity|].
  destruct (p ev); simpl; [discriminate | exact IH].
Qed.

End DispatchFacts.

(** C3 as amended: if the authentication object of the resource is true in
    a condition and its [is_authenticated(request)] returns false,
    [__call__] ends with [authentication.challenge()]: the outcome is that
    of the challenge, the only two calls are to [is_authenticated] and to
    [challenge], and neither the permitted methods nor the method table
    enter; if the authentication is [None] or false in a condition,
    [__call__] is the allow-list check and the dispatch, and calls neither
    [is_authenticated] nor [challenge]. *)
Theorem call_challenges_unauthenticated `{Host}
        (self : ResourceObj) (args : args_t) (kwargs : kwargs_t) (w : world) :
  (forall a r e,
      authentication self = Some a ->
      truth a = true ->
      is_authenticated a (w_request w) (w_env w) = (Return false, r, e) ->
      Resource.__call__ self args kwargs w =
      (let '(o, e') := challenge a e in
       (o, {| w_request := r; w_env := e';
              w_trace := w_trace w ++ [CallIsAuthenticated (w_request w); CallChallenge] |}))) /\
  (truthy (authentication self) = false ->
   Resource.__call__ self args kwargs w = Resource.dispatch self args kwargs w /\
   existsb is_authentication_call
           (new_calls w (snd (Resource.__call__ self args kwargs w))) = false).
Proof.
  split.
  - intros a r e Ha Ht Hno.
    unfold Resource.__call__. rewrite Ha, Ht.
    unfold bind, call, call0. rewrite Hno. simpl.
    destruct (challenge a e) as [o e']. rewrite <- app_assoc. reflexivity.
  - intros Hf.
    assert (E : Resource.__call__ self args kwargs w = Resource.dispatch self args kwargs w).
    { unfold Resource.__call__. unfold truthy in Hf.
      destruct (authentication self) as [a|]; [rewrite Hf|]; reflexivity. }
    split; [exact E|]. rewrite E.
    destruct (dispatch_trace self args kwargs w) as [evs [Ht Hevs]].
    rewrite (new_calls_of_trace _ _ evs Ht).
    apply existsb_of_forallb_negb. exact Hevs.
Qed.

(** C3 as amended, on a request without the password and on a resource
    without authentication. *)
Lemma call_challenges_unauthenticated_witness :
  let guarded := Resource.__init__ Demo.notes (Some (Demo.password "pw")) None in
  let open := Resource.__init__ Demo.notes None None in
  let w := Demo.start "GET" "guess" in
  Resource.__call__ guarded [] [] w =
  (Return Demo.unauthorized,
   Demo.world_at (Demo.request "GET" "guess") 2
                 [CallIsAuthenticated (Demo.request "GET" "guess"); CallChallenge]) /\
  Resource.__call__ open [] [] w = Resource.dispatch open [] [] w.
Proof.
  intros guarded open w. split.
  - exact (proj1 (call_challenges_unauthenticated guarded [] [] w)
                 (Demo.password "pw") (Demo.request "GET" "guess") 1%nat
                 eq_refl eq_refl eq_refl).
  - exact (proj1 (proj2 (call_challenges_unauthenticated open [] [] w) eq_refl)).
Defined.

(** C3 as stated fails: the authentication object [Demo.no_accounts] is not
    [None] and its [is_authenticated] returns false, yet [__call__] neither
    asks it nor returns its challenge; the request is served. *)
Lemma falsy_authentication_is_not_asked :
  let self := Resource.__init__ Demo.notes (Some Demo.no_accounts) None in
  let w := Demo.start "GET" "" in
  authentication self = Some Demo.no_accounts /\
  fst (fst (is_authenticated Demo.no_accounts (w_request w) (w_env w))) = Return false /\
  fst (challenge Demo.no_accounts (w_env w)) = Return Demo.unauthorized /\
  Resource.__call__ self [] [] w =
  (Return (Demo.ok "read GET"),
   Demo.world_at (Demo.request "GET" "") 1 [CallHandler Read (Demo.request "GET" "") [] []]) /\
  fst (Resource.__call__ self [] [] w) <> Return Demo.unauthorized.
Proof.
  intros self w. repeat split. discriminate.
Qed.

Lemma in_list_map_upper (m : string) (ops : list string) :
  in_list (upper m) (map upper ops) = true <->
  exists op, In op ops /\ upper op = upper m.
Proof.
  unfold in_list. rewrite existsb_exists. split.
  - intros [x [Hx Heq]]. apply in_map_iff in Hx. destruct Hx as [op [Hop Hin]].
    apply String.eqb_eq in Heq. exists op. split; [exact Hin | congruence].
  - intros [op [Hin Heq]]. exists (upper op). split.
    + apply in_map. exact Hin.
    + apply String.eqb_eq. symmetry. exact Heq.
Qed.

(** C9 as amended: a resource constructed with [permitted_methods] [None]
    or empty permits exactly ['GET'], so every POST, PUT or DELETE request
    that passes its permission check gets the 405 response; constructed
    with a non-empty sequence it stores the elements upper-cased, so a
    request method is permitted exactly when it equals, both upper-cased,
    an element of the constructor argument. *)
Theorem init_permitted_methods `{Host}
        (cls : ResourceClass) (auth : option Authentication)
        (pm : option (list string)) :
  (pm = None \/ pm = Some [] ->
   permitted_methods (Resource.__init__ cls auth pm) = ["GET"] /\
   forall args kwargs w w1,
     after_authentication (Resource.__init__ cls auth pm) w = Some w1 ->
     In (upper (method (w_request w1))) ["POST"; "PUT"; "DELETE"] ->
     Resource.__call__ (Resource.__init__ cls auth pm) args kwargs w =
     (Return (HttpResponseNotAllowed ["GET"]), w1) /\
     resp_status_code (HttpResponseNotAllowed ["GET"]) = 405%Z) /\
  (forall ops,
      pm = Some ops -> ops <> [] ->
      permitted_methods (Resource.__init__ cls auth pm) = map upper ops /\
      forall m,
        in_list (upper m) (permitted_methods (Resource.__init__ cls auth pm)) = true <->
        exists op, In op ops /\ upper op = upper m).
Proof.
  split.
  - intros Hpm.
    assert (Hget : permitted_methods (Resource.__init__ cls auth pm) = ["GET"])
      by (destruct Hpm as [E|E]; rewrite E; reflexivity).
    split; [exact Hget|].
    intros args kwargs w w1 Hauth Hm.
    assert (Hin : in_list (upper (method (w_request w1)))
                          (permitted_methods (Resource.__init__ cls auth pm)) = false).
    { rewrite Hget. simpl in Hm.
      destruct Hm as [E|[E|[E|[]]]]; rewrite <- E; reflexivity. }
    rewrite (call_after_authentication _ args kwargs w w1 Hauth).
    rewrite (dispatch_not_permitted _ args kwargs w1 Hin), Hget.
    split; reflexivity.
  - intros ops Hpm Hne.
    assert (Hmap : permitted_methods (Resource.__init__ cls auth pm) = map upper ops).
    { rewrite Hpm. destruct ops as [|op ops]; [contradiction | reflexivity]. }
    split; [exact Hmap|].
    intros m. rewrite Hmap. apply in_list_map_upper.
Qed.

(** C9 as amended, on a resource constructed with the empty tuple and on
    one constructed with lower-case method names. *)
Lemma init_permitted_methods_witness :
  let guarded := Resource.__init__ Demo.notes (Some (Demo.password "pw")) (Some []) in
  let w := Demo.start "Post" "pw" in
  let w1 := Demo.world_at (Demo.request "Post" "pw") 1
                          [CallIsAuthenticated (Demo.request "Post" "pw")] in
  (permitted_methods guarded = ["GET"] /\
   Resource.__call__ guarded [] [] w = (Return (HttpResponseNotAllowed ["GET"]), w1)) /\
  @permitted_methods Demo.host (Resource.__init__ Demo.notes None (Some ["get"; "Put"]))
  = ["GET"; "PUT"].
Proof.
  intros guarded w w1. split.
  - destruct (proj1 (init_permitted_methods Demo.notes (Some (Demo.password "pw")) (Some []))
                    (or_intror eq_refl)) as [Hget Hcall].
    split; [exact Hget|].
    refine (proj1 (Hcall [] [] w w1 eq_refl _)).
    simpl. left. reflexivity.
  - refine (proj1 (proj2 (init_permitted_methods Demo.notes None (Some ["get"; "Put"]))
                         ["get"; "Put"] eq_refl _)).
    discriminate.
Defined.

(** C9 as stated fails: the resource is constructed with
    [permitted_methods=None], and a POST request to it without the password
    gets the challenge, a 401, instead of a 405. *)
Lemma default_resource_challenges_post :
  let self := Resource.__init__ Resource.base (Some (Demo.password "pw")) None in
  let w := Demo.start "POST" "" in
  permitted_methods self = ["GET"] /\
  upper (method (w_request w)) = "POST" /\
  fst (Resource.__call__ self [] [] w) = Return Demo.unauthorized /\
  resp_status_code Demo.unauthorized <> 405%Z.
Proof.
  intros self w. repeat split. discriminate.
Qed.

Section StubFacts.
Context `{Host}.

(** Called with the request alone, each of the four default methods raises
    [Http404] and leaves the request as it is. *)
Lemma default_methods_raise_Http404 (request : HttpRequest) (env : Env) :
  Resource.create [] [] request env = (Raise Http404, request, env) /\
  Resource.read [] [] request env = (Raise Http404, request, env) /\
  Resource.update [] [] request env = (Raise Http404, request, env) /\
  Resource.delete [] [] request env = (Raise Http404, request, env).
Proof. repeat split. Qed.

(** Called with anything more, the call does not fit the signature. *)
Lemma default_methods_reject_arguments
      (args : args_t) (kwargs : kwargs_t) (request : HttpRequest) (env : Env) :
  args <> [] \/ kwargs <> [] ->
  Resource.stub args kwargs request env = (Raise TypeError, request, env).
Proof.
  intros Hne. unfold Resource.stub.
  destruct args as [|a args]; [|reflexivity].
  destruct kwargs as [|k kwargs]; [|reflexivity].
  destruct Hne as [E|E]; contradiction.
Qed.

End StubFacts.

(** C8: on a resource of the base class that permits the four methods,
    [__call__] without further arguments raises [Http404] from the default
    method for GET, POST, PUT and DELETE; with a positional or keyword
    argument to forward, the call of the default method raises
    [TypeError], and no [Http404] is raised. *)
Theorem default_methods_through_call :
  let self := @Resource.__init__ Demo.host Resource.base None
                                 (Some ["GET"; "POST"; "PUT"; "DELETE"]) in
  (fst (Resource.__call__ self [] [] (Demo.start "GET" "")) = Raise Http404 /\
   fst (Resource.__call__ self [] [] (Demo.start "POST" "")) = Raise Http404 /\
   fst (Resource.__call__ self [] [] (Demo.start "PUT" "")) = Raise Http404 /\
   fst (Resource.__call__ self [] [] (Demo.start "DELETE" "")) = Raise Http404) /\
  Resource.__call__ self [VStr "42"] [] (Demo.start "GET" "") =
  (Raise TypeError,
   Demo.world_at (Demo.request "GET" "") 0
                 [CallHandler Read (Demo.request "GET" "") [VStr "42"] []]) /\
  fst (Resource.__call__ self [] [("id", VStr "42")] (Demo.start "DELETE" ""))
  = Raise TypeError.
Proof.
  intros self. repeat split.
Qed.

(* ===================================================================== *)
(** * Properties of responder.py *)
(* ===================================================================== *)

Lemma prefix_append (a b : string) : prefix a (a ++ b) = true.
Proof.
  induction a as [|c a IH]; simpl.
  - destruct b; reflexivity.
  - destruct (ascii_dec c c) as [_|Hne]; [exact IH | contradiction].
Qed.

Lemma prefix_refl (a : string) : prefix a a = true.
Proof.
  induction a as [|c a IH]; simpl; [reflexivity|].
  destruct (ascii_dec c c) as [_|Hne]; [exact IH | contradiction].
Qed.

Lemma contains_unfold (needle hay : string) :
  contains needle hay =
  if prefix needle hay then true
  else match hay with
       | EmptyString => false
       | String _ hay' => contains needle hay'
       end.
Proof. destruct hay; reflexivity. Qed.

Lemma contains_append (needle a b : string) :
  contains needle (a ++ needle ++ b) = true.
Proof.
  induction a as [|c a IH]; cbn [append].
  - rewrite contains_unfold, prefix_append. reflexivity.
  - rewrite contains_unfold, IH.
    destruct (prefix needle (String c (a ++ needle ++ b))); reflexivity.
Qed.

Lemma contains_first_char (c : ascii) (needle hay : string) :
  has_char c hay = false -> contains (String c needle) hay = false.
Proof.
  induction hay as [|a hay IH]; simpl; [reflexivity|].
  destruct (Ascii.eqb_spec c a) as [E|E]; [discriminate|].
  intros Hno. destruct (ascii_dec c a) as [E'|_]; [contradiction | auto].
Qed.

Lemma has_char_append (c : ascii) (a b : string) :
  has_char c (a ++ b) = orb (has_char c a) (has_char c b).
Proof.
  induction a as [|x a IH]; simpl; [reflexivity|].
  destruct (Ascii.eqb c x); [reflexivity | exact IH].
Qed.

Lemma string_append_assoc (a b c : string) : ((a ++ b) ++ c = a ++ b ++ c)%string.
Proof. induction a as [|x a IH]; simpl; [reflexivity | rewrite IH; reflexivity]. Qed.

(** The decimal form of an integer has no line break in it. *)
Lemma str_of_int_one_line (n : Z) : has_char (ascii_of_nat 10) (str_of_int n) = false.
Proof.
  assert (Hu : forall d, has_char (ascii_of_nat 10) (NilEmpty.string_of_uint d) = false)
    by (induction d; simpl; auto).
  assert (Hz : forall d, has_char (ascii_of_nat 10) (NilZero.string_of_uint d) = false)
    by (intros d; destruct d; try reflexivity; apply (Hu _)).
  unfold str_of_int, NilZero.string_of_int.
  destruct (Z.to_int n) as [d|d]; simpl; apply Hz.
Qed.

(** C5: [error] returns a response whose status code is the given one and
    whose body begins with 'Error ' and the status code; the body contains
    the heading '\n\nErrors:\n' exactly when [error_dict] is not empty, and
    then the heading follows the first line and [error_dict.as_text()]
    follows the heading. *)
Theorem error_response `{Host}
        (self : ResponderObj) (status_code : Z) (error_dict : ErrorDict) :
  let response := SerializeResponder.error self status_code error_dict in
  resp_status_code response = status_code /\
  prefix ("Error " ++ str_of_int status_code)%string (resp_content response) = true /\
  (contains errors_heading (resp_content response) = true <-> error_dict <> []) /\
  (error_dict <> [] ->
   resp_content response =
   ("Error " ++ str_of_int status_code ++ errors_heading ++ as_text error_dict)%string) /\
  (error_dict = [] ->
   resp_content response = ("Error " ++ str_of_int status_code)%string).
Proof.
  intros response.
  assert (Hempty : error_dict = [] ->
                   resp_content response = ("Error " ++ str_of_int status_code)%string)
    by (intros E; subst; reflexivity).
  assert (Hfull : error_dict <> [] ->
                  resp_content response =
                  ("Error " ++ str_of_int status_code ++ errors_heading
                            ++ as_text error_dict)%string).
  { intros Hne. subst response. unfold SerializeResponder.error.
    destruct error_dict as [|kv error_dict]; [contradiction|].
    cbn [nonempty write new_HttpResponse set_status_code resp_content
         resp_mimetype resp_status_code resp_allow].
    rewrite !string_append_assoc. reflexivity. }
  split; [reflexivity|].
  destruct error_dict as [|kv error_dict].
  - rewrite (Hempty eq_refl).
    split; [apply prefix_refl|].
    split; [|split; [intros E; contradiction | reflexivity]].
    split; [|intros E; contradiction].
    intros Hc. exfalso.
    change errors_heading
      with (String (ascii_of_nat 10) (nl ++ "Errors:" ++ nl)%string) in Hc.
    rewrite (contains_first_char (ascii_of_nat 10)) in Hc; [discriminate Hc|].
    simpl. apply str_of_int_one_line.
  - assert (Hne : kv :: error_dict <> []) by discriminate.
    rewrite (Hfull Hne).
    split; [|split; [|split; [reflexivity | intros E; discriminate E]]].
    + rewrite <- (string_append_assoc "Error " (str_of_int status_code)
                                      (errors_heading ++ as_text (kv :: error_dict))).
      apply prefix_append.
    + split; [intros _; exact Hne|]. intros _.
      rewrite <- (string_append_assoc "Error " (str_of_int status_code)
                                      (errors_heading ++ as_text (kv :: error_dict))).
      apply contains_append.
Qed.

(** C5, on a validation error with one entry and on an error without
    entries. *)
Lemma error_response_witness :
  let missing := [("title", ["This field is required."])] in
  (resp_content (@SerializeResponder.error Demo.host JSONResponder.__init__ 400 missing)
   = ("Error 400" ++ errors_heading ++ "* title")%string /\
   contains errors_heading
            (resp_content (@SerializeResponder.error Demo.host JSONResponder.__init__ 400 missing))
   = true) /\
  resp_content (@SerializeResponder.error Demo.host JSONResponder.__init__ 404 [])
  = "Error 404".
Proof.
  intros missing.
  destruct (@error_response Demo.host JSONResponder.__init__ 400 missing)
    as [_ [_ [Hiff [Hfull _]]]].
  destruct (@error_response Demo.host JSONResponder.__init__ 404 [])
    as [_ [_ [_ [_ Hempty]]]].
  assert (Hne : missing <> []) by discriminate.
  split; [split|].
  - exact (Hfull Hne).
  - exact (proj2 Hiff Hne).
  - exact (Hempty eq_refl).
Defined.

(** C6: a [JSONResponder] is the [SerializeResponder] with format 'json'
    and mimetype 'application/json', an [XMLResponder] the one with format
    'xml' and mimetype 'application/xml'. *)
Theorem json_and_xml_responders :
  JSONResponder.__init__ = SerializeResponder.__init__ "json" (Some "application/json") /\
  format JSONResponder.__init__ = "json" /\
  mimetype JSONResponder.__init__ = Some "application/json" /\
  XMLResponder.__init__ = SerializeResponder.__init__ "xml" (Some "application/xml") /\
  format XMLResponder.__init__ = "xml" /\
  mimetype XMLResponder.__init__ = Some "application/xml".
Proof. repeat split. Qed.

(** C7: [list] makes the one call [serializers.serialize(self.format,
    queryset)] and returns an [HttpResponse] whose body is what the call
    returned, whose mimetype is [self.mimetype] and whose status code is
    the default; [element] does the same with the one-element list
    [[elem]].  When the serializer raises, so do they. *)
Theorem list_and_element_response `{Host}
        (self : ResponderObj) (queryset : list Model) (elem : Model) (w : rworld) :
  (forall body e,
      serialize (format self) queryset (r_env w) = (Return body, e) ->
      SerializeResponder.list self queryset w =
      (Return {| resp_content := body; resp_mimetype := mimetype self;
                 resp_status_code := 200; resp_allow := [] |},
       {| r_env := e; r_calls := r_calls w ++ [(format self, queryset)] |})) /\
  (forall body e,
      serialize (format self) [elem] (r_env w) = (Return body, e) ->
      SerializeResponder.element self elem w =
      (Return {| resp_content := body; resp_mimetype := mimetype self;
                 resp_status_code := 200; resp_allow := [] |},
       {| r_env := e; r_calls := r_calls w ++ [(format self, [elem])] |})) /\
  (forall x e,
      serialize (format self) queryset (r_env w) = (Raise x, e) ->
      SerializeResponder.list self queryset w =
      (Raise x, {| r_env := e; r_calls := r_calls w ++ [(format self, queryset)] |})) /\
  (forall x e,
      serialize (format self) [elem] (r_env w) = (Raise x, e) ->
      SerializeResponder.element self elem w =
      (Raise x, {| r_env := e; r_calls := r_calls w ++ [(format self, [elem])] |})).
Proof.
  unfold SerializeResponder.list, SerializeResponder.element,
    SerializeResponder.render, bind, call_serialize, ret, new_HttpResponse.
  repeat split; intros ? e Hs; rewrite Hs; reflexivity.
Qed.

(** C7, on the JSON responder and a queryset of two objects. *)
Lemma list_and_element_response_witness :
  @SerializeResponder.list Demo.host JSONResponder.__init__ ["a"; "b"] Demo.rstart =
  (Return {| resp_content := "json:a,b"; resp_mimetype := Some "application/json";
             resp_status_code := 200; resp_allow := [] |},
   Demo.rworld_at 1 [("json", ["a"; "b"])]) /\
  @SerializeResponder.element Demo.host XMLResponder.__init__ "a" Demo.rstart =
  (Return {| resp_content := "xml:a"; resp_mimetype := Some "application/xml";
             resp_status_code := 200; resp_allow := [] |},
   Demo.rworld_at 1 [("xml", ["a"])]).
Proof.
  split.
  - exact (proj1 (@list_and_element_response Demo.host JSONResponder.__init__
                    ["a"; "b"] "a" Demo.rstart) "json:a,b" 1%nat eq_refl).
  - exact (proj1 (proj2 (@list_and_element_response Demo.host XMLResponder.__init__
                           [] "a" Demo.rstart)) "xml:a" 1%nat eq_refl).
Defined.

(* ===================================================================== *)
(** * Further properties of resource.py *)
(* ===================================================================== *)





(** X2: [__call__] compares the upper-cased method, [load_put_and_files]
    the method as it is.  A permitted request whose method is 'PUT' only
    after upper-casing reaches [update] with the body unparsed: the parser
    is not called and the request is the one that passed the permission
    check. *)
Theorem mixed_case_put_is_not_parsed `{Host}
        (self : ResourceObj) (args : args_t) (kwargs : kwargs_t) (w w1 : world) :
  after_authentication self w = Some w1 ->
  in_list (upper (method (w_request w1))) (permitted_methods self) = true ->
  upper (method (w_request w1)) = "PUT" ->
  method (w_request w1) <> "PUT" ->
  Resource.__call__ self args kwargs w =
  invoked Update (cls_update (class_of self)) args kwargs w1.
Proof.
  intros Hauth Hin Hup Hne.
  rewrite (call_after_authentication self args kwargs w w1 Hauth).
  rewrite (dispatch_permitted self args kwargs w1 Hin). cbv zeta.
  rewrite Hup. simpl.
  rewrite (load_put_and_files_other w1 Hne). reflexivity.
Qed.

(** X2, on a request with the method 'put': [update] finds no [PUT]. *)
Lemma mixed_case_put_is_not_parsed_witness :
  let self := Resource.__init__ Demo.notes None (Some ["PUT"]) in
  let w := Demo.start "put" "a=1" in
  Resource.__call__ self [] [] w =
  (Return (Demo.ok "no PUT"),
   Demo.world_at (Demo.request "put" "a=1") 1
                 [CallHandler Update (Demo.request "put" "a=1") [] []]).
Proof.
  intros self w.
  refine (@mixed_case_put_is_not_parsed Demo.host self [] [] w w eq_refl eq_refl eq_refl _).
  discriminate.
Defined.

Lemma after_authentication_trace `{Host} (self : ResourceObj) (w w1 : world) :
  after_authentication self w = Some w1 ->
  exists pre,
    w_trace w1 = w_trace w ++ pre /\
    (pre = [] \/ pre = [CallIsAuthenticated (w_request w)]).
Proof.
  unfold after_authentication, truthy.
  destruct (authentication self) as [a|].
  - destruct (truth a).
    + destruct (is_authenticated a (w_request w) (w_env w)) as [[o r] e].
      destruct o as [[|]|]; intros Hw; inversion Hw; subst; simpl.
      eexists; split; [reflexivity | right; reflexivity].
    + intros Hw; inversion Hw; subst. exists []. rewrite app_nil_r. auto.
  - intros Hw; inversion Hw; subst. exists []. rewrite app_nil_r. auto.
Qed.

(** X3: when the body parser raises on a PUT request, [load_put_and_files]
    raises the same exception and leaves the request as the parser left it:
    the method is not set back to 'PUT' and [PUT] is not assigned.
    [__call__] raises that exception and does not call [update]. *)
Theorem put_parser_failure `{Host}
        (self : ResourceObj) (args : args_t) (kwargs : kwargs_t) (w w1 : world)
        (x : exn) (r1 : HttpRequest) (e1 : Env) :
  after_authentication self w = Some w1 ->
  in_list (upper (method (w_request w1))) (permitted_methods self) = true ->
  method (w_request w1) = "PUT" ->
  _load_post_and_files (set_method "POST" (w_request w1)) (w_env w1) = (Raise x, r1, e1) ->
  let w' := {| w_request := r1; w_env := e1;
               w_trace := w_trace w1 ++
                          [CallLoadPostAndFiles (set_method "POST" (w_request w1))] |} in
  load_put_and_files w1 = (Raise x, w') /\
  Resource.__call__ self args kwargs w = (Raise x, w') /\
  existsb is_handler_call (new_calls w w') = false.
Proof.
  intros Hauth Hin Hm Hparse w'.
  assert (Hload : load_put_and_files w1 = (Raise x, w'))
    by (rewrite (load_put_and_files_put w1 Hm), Hparse; reflexivity).
  split; [exact Hload | split].
  - rewrite (call_after_authentication self args kwargs w w1 Hauth).
    rewrite (dispatch_permitted self args kwargs w1 Hin). cbv zeta.
    rewrite Hm. simpl. rewrite Hload. reflexivity.
  - destruct (after_authentication_trace self w w1 Hauth) as [pre [Ht Hpre]].
    rewrite (new_calls_of_trace w w'
               (pre ++ [CallLoadPostAndFiles (set_method "POST" (w_request w1))])).
    + destruct Hpre as [E|E]; rewrite E; reflexivity.
    + subst w'. simpl. rewrite Ht, app_assoc. reflexivity.
Qed.

(** X3, on a PUT request with an empty body to the strict host: the request
    is left with the method 'POST'. *)
Lemma put_parser_failure_witness :
  let self := Resource.__init__ DemoStrict.notes None (Some ["PUT"]) in
  let w := DemoStrict.start "PUT" "" in
  Resource.__call__ self [] [] w =
  (Raise (HostError "MultiPartParserError"),
   DemoStrict.world_at (Demo.request "POST" "") 1
                       [CallLoadPostAndFiles (Demo.request "POST" "")]).
Proof.
  intros self w.
  exact (proj1 (proj2 (@put_parser_failure DemoStrict.host self [] [] w w
                         (HostError "MultiPartParserError") (Demo.request "POST" "") 1%nat
                         eq_refl eq_refl eq_refl eq_refl))).
Defined.

(** X4: on a PUT request that passes the checks and whose body the parser
    accepts, [update] is called on a request whose method is 'PUT' again
    and whose [PUT] is the [POST] data the parser produced while the method
    read 'POST'. *)
Theorem put_reaches_update_parsed `{Host}
        (self : ResourceObj) (args : args_t) (kwargs : kwargs_t) (w w1 : world)
        (r1 : HttpRequest) (e1 : Env) :
  after_authentication self w = Some w1 ->
  in_list (upper (method (w_request w1))) (permitted_methods self) = true ->
  method (w_request w1) = "PUT" ->
  _load_post_and_files (set_method "POST" (w_request w1)) (w_env w1) = (Return tt, r1, e1) ->
  let w2 := {| w_request := set_method "PUT" (set_PUT (POST r1) r1); w_env := e1;
               w_trace := w_trace w1 ++
                          [CallLoadPostAndFiles (set_method "POST" (w_request w1))] |} in
  Resource.__call__ self args kwargs w =
  invoked Update (cls_update (class_of self)) args kwargs w2 /\
  method (w_request w2) = "PUT" /\
  PUT (w_request w2) = Some (POST r1) /\
  POST (w_request w2) = POST r1.
Proof.
  intros Hauth Hin Hm Hparse w2.
  split; [|repeat split].
  rewrite (call_after_authentication self args kwargs w w1 Hauth).
  rewrite (dispatch_permitted self args kwargs w1 Hin). cbv zeta.
  rewrite Hm. simpl.
  rewrite (load_put_and_files_put w1 Hm), Hparse. reflexivity.
Qed.

(** X4, on a PUT request with a body: [update] of the demo class answers
    with the values it finds in [PUT]. *)
Lemma put_reaches_update_parsed_witness :
  let self := Resource.__init__ Demo.notes None (Some ["PUT"]) in
  let w := Demo.start "PUT" "a=1" in
  fst (Resource.__call__ self [] [] w) = Return (Demo.ok "a=1").
Proof.
  intros self w.
  pose (r1 := {| method := "POST"; raw_post_data := "a=1";
                 POST := [("body", "a=1")]; FILES := []; PUT := None |}).
  rewrite (proj1 (@put_reaches_update_parsed Demo.host self [] [] w w r1 1%nat
                    eq_refl eq_refl eq_refl eq_refl)).
  reflexivity.
Defined.

Section CallShape.
Context `{Host}.

Lemma load_put_and_files_calls (w : world) :
  w_trace (snd (load_put_and_files w)) = w_trace w \/
  w_trace (snd (load_put_and_files w)) =
  w_trace w ++ [CallLoadPostAndFiles (set_method "POST" (w_request w))].
Proof.
  destruct (String.eqb_spec (method (w_request w)) "PUT") as [E|E].
  - right. rewrite (load_put_and_files_put w E).
    destruct (_load_post_and_files (set_method "POST" (w_request w)) (w_env w))
      as [[[u|x] r1] e1]; reflexivity.
  - left. rewrite (load_put_and_files_other w E). reflexivity.
Qed.

(** The calls that the allow-list check and the dispatch can make. *)
Lemma dispatch_calls (self : ResourceObj) (args : args_t) (kwargs : kwargs_t)
      (w : world) :
  exists post,
    w_trace (snd (Resource.dispatch self args kwargs w)) = w_trace w ++ post /\
    (post = [] \/
     (exists c r, post = [CallHandler c r args kwargs]) \/
     (exists r, post = [CallLoadPostAndFiles r]) \/
     (exists r r', post = [CallLoadPostAndFiles r; CallHandler Update r' args kwargs])).
Proof.
  destruct (in_list (upper (method (w_request w))) (permitted_methods self)) eqn:Hin.
  - rewrite (dispatch_permitted self args kwargs w Hin). cbv zeta.
    destruct (String.eqb (upper (method (w_request w))) "GET");
      [rewrite invoked_trace; eexists; split; [reflexivity | right; left; eauto]|].
    destruct (String.eqb (upper (method (w_request w))) "POST");
      [rewrite invoked_trace; eexists; split; [reflexivity | right; left; eauto]|].
    destruct (String.eqb (upper (method (w_request w))) "PUT").
    + destruct (load_put_and_files_calls w) as [Ht|Ht];
        destruct (load_put_and_files w) as [[u|x] w2]; simpl in Ht.
      * rewrite invoked_trace, Ht. eexists; split; [reflexivity | right; left; eauto].
      * simpl. rewrite Ht. exists []. rewrite app_nil_r. auto.
      * rewrite invoked_trace, Ht, <- app_assoc.
        eexists; split; [reflexivity | right; right; right; simpl; eauto].
      * simpl. rewrite Ht. eexists; split; [reflexivity | right; right; left; eauto].
    + destruct (String.eqb (upper (method (w_request w))) "DELETE");
        [rewrite invoked_trace; eexists; split; [reflexivity | right; left; eauto]|].
      exists []. simpl. rewrite app_nil_r. auto.
  - rewrite (dispatch_not_permitted self args kwargs w Hin).
    exists []. simpl. rewrite app_nil_r. auto.
Qed.

(** The calls that [__call__] can make: the permission check first, then
    either the challenge or what the dispatch does. *)
Lemma call_calls (self : ResourceObj) (args : args_t) (kwargs : kwargs_t) (w : world) :
  exists pre post,
    w_trace (snd (Resource.__call__ self args kwargs w)) = w_trace w ++ pre ++ post /\
    (pre = [] \/ pre = [CallIsAuthenticated (w_request w)]) /\
    (post = [] \/
     post = [CallChallenge] \/
     (exists c r, post = [CallHandler c r args kwargs]) \/
     (exists r, post = [CallLoadPostAndFiles r]) \/
     (exists r r', post = [CallLoadPostAndFiles r; CallHandler Update r' args kwargs])).
Proof.
  assert (Hd : forall w0 pre,
             w_trace w0 = w_trace w ++ pre ->
             (pre = [] \/ pre = [CallIsAuthenticated (w_request w)]) ->
             exists pre post,
               w_trace (snd (Resource.dispatch self args kwargs w0)) = w_trace w ++ pre ++ post /\
               (pre = [] \/ pre = [CallIsAuthenticated (w_request w)]) /\
               (post = [] \/
                post = [CallChallenge] \/
                (exists c r, post = [CallHandler c r args kwargs]) \/
                (exists r, post = [CallLoadPostAndFiles r]) \/
                (exists r r', post = [CallLoadPostAndFiles r;
                                      CallHandler Update r' args kwargs]))).
  { intros w0 pre Hw0 Hpre.
    destruct (dispatch_calls self args kwargs w0) as [post [Ht Hpost]].
    exists pre, post. rewrite Ht, Hw0, <- app_assoc.
    split; [reflexivity | split; [exact Hpre|]].
    destruct Hpost as [E|[E|[E|E]]]; auto. }
  unfold Resource.__call__.
  destruct (authentication self) as [a|];
    [destruct (truth a)|]; try (apply (Hd w []); [rewrite app_nil_r|]; auto).
  unfold bind, call, call0.
  destruct (is_authenticated a (w_request w) (w_env w)) as [[[ok|x] r] e]; simpl.
  - destruct ok; simpl.
    + apply (Hd _ [CallIsAuthenticated (w_request w)]); auto.
    + destruct (challenge a e) as [o e']. simpl.
      exists [CallIsAuthenticated (w_request w)], [CallChallenge].
      rewrite <- app_assoc. auto.
  - exists [CallIsAuthenticated (w_request w)], []. auto.
Qed.

End CallShape.

(** X5: in one run [__call__] calls at most one CRUD method and the body
    parser at most once; a CRUD method is called last, with the [args] and
    [kwargs] that [__call__] was given; when the challenge is issued,
    neither a CRUD method nor the parser is called. *)
Theorem call_calls_one_handler `{Host}
        (self : ResourceObj) (args : args_t) (kwargs : kwargs_t) (w : world) :
  let calls := new_calls w (snd (Resource.__call__ self args kwargs w)) in
  length (filter is_handler_call calls) <= 1 /\
  length (filter is_parser_call calls) <= 1 /\
  (forall c r a k,
      In (CallHandler c r a k) calls ->
      a = args /\ k = kwargs /\ last calls CallChallenge = CallHandler c r a k) /\
  (In CallChallenge calls ->
   existsb is_handler_call calls = false /\ existsb is_parser_call calls = false).
Proof.
  intros calls.
  destruct (call_calls self args kwargs w) as [pre [post [Ht [Hpre Hpost]]]].
  assert (Hc : calls = pre ++ post) by (apply new_calls_of_trace; exact Ht).
  rewrite Hc. clear Hc Ht calls.
  destruct Hpre as [Epre|Epre];
    destruct Hpost as [E|[E|[[c0 [r0 E]]|[[r0 E]|[r0 [r0' E]]]]]];
    rewrite Epre, E; simpl;
    (split; [lia | split; [lia | split]]);
    try (intros c r a k Hin;
         repeat match goal with
                | Hor : _ \/ _ |- _ => destruct Hor
                | Hf : False |- _ => contradiction
                | Heq : _ = CallHandler _ _ _ _ |- _ =>
                    first [discriminate Heq | inversion Heq; clear Heq; subst]
                end; auto);
    try (intros Hin;
         repeat match goal with
                | Hor : _ \/ _ |- _ => destruct Hor
                | Hf : False |- _ => contradiction
                | Heq : _ = CallChallenge |- _ => discriminate Heq
                end; auto).
Qed.

(** X5, on a PUT request to the demo resource: the parser, then [update]. *)
Lemma call_calls_one_handler_witness :
  let self := Resource.__init__ Demo.notes None (Some ["PUT"]) in
  let w := Demo.start "PUT" "a=1" in
  let calls := new_calls w (snd (Resource.__call__ self [VInt 1] [] w)) in
  let seen := {| method := "PUT"; raw_post_data := "a=1";
                 POST := [("body", "a=1")]; FILES := [];
                 PUT := Some [("body", "a=1")] |} in
  In (CallHandler Update seen [VInt 1] []) calls /\
  last calls CallChallenge = CallHandler Update seen [VInt 1] [].
Proof.
  intros self w calls seen.
  assert (Hin : In (CallHandler Update seen [VInt 1] []) calls)
    by (right; left; reflexivity).
  split; [exact Hin|].
  exact (proj2 (proj2 (proj1 (proj2 (proj2
           (@call_calls_one_handler Demo.host self [VInt 1] [] w)))
           Update seen [VInt 1] [] Hin))).
Defined.

Section BaseResource.
Context `{Host}.

Lemma invoked_stub_raises (c : crud) (args : args_t) (kwargs : kwargs_t) (w : world) :
  fst (invoked c Resource.stub args kwargs w) = Raise Http404 \/
  fst (invoked c Resource.stub args kwargs w) = Raise TypeError.
Proof.
  unfold invoked, Resource.stub.
  destruct args as [|a args]; [destruct kwargs as [|k kwargs]|]; simpl; auto.
Qed.

Lemma dispatch_base_returns (self : ResourceObj) (args : args_t) (kwargs : kwargs_t)
      (w : world) (resp : HttpResponse) :
  class_of self = Resource.base ->
  fst (Resource.dispatch self args kwargs w) = Return resp ->
  resp = HttpResponseNotAllowed (permitted_methods self).
Proof.
  intros Hbase.
  destruct (in_list (upper (method (w_request w))) (permitted_methods self)) eqn:Hin.
  - rewrite (dispatch_permitted self args kwargs w Hin). cbv zeta.
    rewrite Hbase. simpl.
    unfold Resource.read, Resource.create, Resource.update, Resource.delete.
    destruct (String.eqb (upper (method (w_request w))) "GET");
      [intros Hr; destruct (invoked_stub_raises Read args kwargs w) as [E|E];
       rewrite E in Hr; discriminate Hr|].
    destruct (String.eqb (upper (method (w_request w))) "POST");
      [intros Hr; destruct (invoked_stub_raises Create args kwargs w) as [E|E];
       rewrite E in Hr; discriminate Hr|].
    destruct (String.eqb (upper (method (w_request w))) "PUT").
    + destruct (load_put_and_files w) as [[u|x] w2]; intros Hr; [|discriminate Hr].
      destruct (invoked_stub_raises Update args kwargs w2) as [E|E];
        rewrite E in Hr; discriminate Hr.
    + destruct (String.eqb (upper (method (w_request w))) "DELETE");
        intros Hr; [|discriminate Hr].
      destruct (invoked_stub_raises Delete args kwargs w) as [E|E];
        rewrite E in Hr; discriminate Hr.
  - rewrite (dispatch_not_permitted self args kwargs w Hin). simpl.
    intros Hr; inversion Hr; reflexivity.
Qed.

End BaseResource.

(** X6: a resource whose class overrides none of the four CRUD methods
    never serves content.  Whenever its [__call__] returns a response, the
    response is the 405 built from the permitted methods or the response
    returned by the challenge of its authentication object. *)
Theorem base_resource_serves_nothing `{Host}
        (self : ResourceObj) (args : args_t) (kwargs : kwargs_t) (w : world)
        (resp : HttpResponse) :
  class_of self = Resource.base ->
  fst (Resource.__call__ self args kwargs w) = Return resp ->
  resp = HttpResponseNotAllowed (permitted_methods self) \/
  (exists a e, authentication self = Some a /\ fst (challenge a e) = Return resp).
Proof.
  intros Hbase. unfold Resource.__call__.
  destruct (authentication self) as [a|];
    [destruct (truth a)|];
    try (intros Hr; left; exact (dispatch_base_returns self args kwargs _ resp Hbase Hr)).
  unfold bind, call, call0.
  destruct (is_authenticated a (w_request w) (w_env w)) as [[[ok|x] r] e]; simpl;
    [|intros Hr; discriminate Hr].
  destruct ok; simpl.
  - intros Hr; left; exact (dispatch_base_returns self args kwargs _ resp Hbase Hr).
  - intros Hr. right. exists a, e. split; [reflexivity|].
    destruct (challenge a e) as [o e']. exact Hr.
Qed.

(** X6, on a POST request to a base resource that permits GET. *)
Lemma base_resource_serves_nothing_witness :
  let self := @Resource.__init__ Demo.host Resource.base None None in
  let w := Demo.start "POST" "a=1" in
  fst (Resource.__call__ self [] [] w) = Return (HttpResponseNotAllowed ["GET"]) /\
  (HttpResponseNotAllowed ["GET"] = HttpResponseNotAllowed (permitted_methods self) \/
   exists a e, authentication self = Some a /\
               fst (challenge a e) = Return (HttpResponseNotAllowed ["GET"])).
Proof.
  intros self w.
  assert (Hr : fst (Resource.__call__ self [] [] w) = Return (HttpResponseNotAllowed ["GET"]))
    by reflexivity.
  split; [exact Hr|].
  exact (@base_resource_serves_nothing Demo.host self [] [] w _ eq_refl Hr).
Defined.

(* ===================================================================== *)
(** * Further properties of responder.py *)
(* ===================================================================== *)

Lemma string_length_append (a b : string) :
  String.length (a ++ b) = String.length a + String.length b.
Proof. induction a as [|x a IH]; simpl; [reflexivity | rewrite IH; reflexivity]. Qed.

Lemma string_append_cancel_r (a b c : string) :
  (a ++ c)%string = (b ++ c)%string -> a = b.
Proof.
  revert b. induction a as [|x a IH]; intros [|y b] Heq; simpl in Heq.
  - reflexivity.
  - exfalso. apply (f_equal String.length) in Heq. simpl in Heq.
    rewrite string_length_append in Heq. lia.
  - exfalso. apply (f_equal String.length) in Heq. simpl in Heq.
    rewrite string_length_append in Heq. lia.
  - injection Heq as Hx Hrest. rewrite Hx, (IH b Hrest). reflexivity.
Qed.

(** The decimal form reads back as the integer it was made from. *)
Lemma str_of_int_reads_back (n : Z) :
  option_map Z.of_int (NilZero.int_of_string (str_of_int n)) = Some n.
Proof.
  unfold str_of_int. rewrite NilZero.isi.
  - simpl. rewrite DecimalZ.of_to. reflexivity.
  - destruct n as [|p|p]; simpl; try discriminate.
    intros E. injection E as E. exact (DecimalPos.Unsigned.to_uint_nonnil p E).
  - destruct n as [|p|p]; simpl; try discriminate.
    intros E. injection E as E. exact (DecimalPos.Unsigned.to_uint_nonnil p E).
Qed.

Lemma str_of_int_injective (n n' : Z) : str_of_int n = str_of_int n' -> n = n'.
Proof.
  intros E. generalize (str_of_int_reads_back n). rewrite E, str_of_int_reads_back.
  intros E'. injection E' as E'. symmetry. exact E'.
Qed.

Lemma error_content `{Host} (self : ResponderObj) (status_code : Z) (error_dict : ErrorDict) :
  resp_content (SerializeResponder.error self status_code error_dict) =
  ("Error " ++ str_of_int status_code ++
    (if nonempty error_dict then errors_heading ++ as_text error_dict else ""))%string.
Proof.
  unfold SerializeResponder.error.
  destruct error_dict as [|kv error_dict];
    cbn [nonempty write new_HttpResponse set_status_code resp_content
         resp_mimetype resp_status_code resp_allow].
  - assert (E : forall s : string, (s ++ "")%string = s)
      by (induction s as [|x s IH]; simpl; [|rewrite IH]; reflexivity).
    rewrite E. reflexivity.
  - rewrite !string_append_assoc. reflexivity.
Qed.

(** X7: the body that [error] writes tells the status code: for the same
    [error_dict], two responses have the same body only if they were made
    for the same status code, whatever the mimetypes of the responders. *)
Theorem error_body_determines_status `{Host}
        (self self' : ResponderObj) (status_code status_code' : Z)
        (error_dict : ErrorDict) :
  resp_content (SerializeResponder.error self status_code error_dict) =
  resp_content (SerializeResponder.error self' status_code' error_dict) ->
  status_code = status_code'.
Proof.
  rewrite !error_content. intros Heq.
  simpl in Heq. injection Heq as Heq.
  apply string_append_cancel_r in Heq.
  apply str_of_int_injective. exact Heq.
Qed.

(** X7, on the JSON and the XML responder at status 404. *)
Lemma error_body_determines_status_witness :
  resp_content (@SerializeResponder.error Demo.host JSONResponder.__init__ 404 []) =
  resp_content (@SerializeResponder.error Demo.host XMLResponder.__init__ 404 []) /\
  404%Z = 404%Z.
Proof.
  assert (Hb : resp_content (@SerializeResponder.error Demo.host JSONResponder.__init__ 404 []) =
               resp_content (@SerializeResponder.error Demo.host XMLResponder.__init__ 404 []))
    by reflexivity.
  split; [exact Hb|].
  exact (@error_body_determines_status Demo.host _ _ 404 404 [] Hb).
Defined.
